(** * Ecommerce_API: access policy and query shaping of [product/views.py]

    A shallow embedding of the five view sets of [product/views.py]
    ([UserViewSet], [ProductViewSet], [OrderViewSet], [ReviewViewSet],
    [CategoryViewSet]), of the permission class [IsAdminOrReadOnly] and of
    [ProductFilter], together with the part of the request pipeline that
    the hosting framework runs around them (permission checks, object
    lookup in the view's queryset, conversion of errors to status codes).

    Tables are finite maps from primary keys to rows, a queryset is such a
    map, and every handler is a function from the store to a response and
    a new store. *)

From stdpp Require Import gmap strings numbers.
From Stdlib Require Import QArith Qcanon.

Open Scope string_scope.
Open Scope Z_scope.

(** A proof depends on the section variables of its statement only. *)
Set Default Proof Using "Type".

(** ** Entities *)

Module Models.

Definition pk := Z.

(** Modelled from the spec: [django.contrib.auth.models.User] as far as
    the views read it (section 3: identity, credential, role flag). *)
Record User := mkUser { username : string; is_staff : bool }.

(** Modelled from the spec: [models.py] is not part of the sources; the
    rows carry the fields of section 3 under the names [views.py] and
    [tests.py] use for them. *)
Record Category := mkCategory { category_name : string }.

Record Product := mkProduct {
  name : string;
  price : Qc;
  stock_quantity : Z;
  category : option pk
}.

Record Order := mkOrder {
  order_user : pk;
  order_items : list (pk * Z)
}.

Record Review := mkReview {
  review_product : pk;
  review_user : pk;
  rating : Z;
  comment : string
}.

(** A queryset is a set of rows addressed by primary key. *)
Abbreviation QuerySet A := (gmap pk A).

Record Store := mkStore {
  users : QuerySet User;
  categories : QuerySet Category;
  products : QuerySet Product;
  orders : QuerySet Order;
  reviews : QuerySet Review
}.

(** The key an auto-increment primary key column hands out next. *)
Definition next_pk {A} (table : QuerySet A) : pk :=
  1 + map_fold (fun k _ acc => Z.max k acc) 0 table.

End Models.
Export Models.

(** ** The framework around the views *)

Module Framework.

(** [request.user]: the anonymous user, or a row of the user table that
    the authentication backend resolved from the credential. *)
Inductive RequestUser :=
| AnonymousUser
| AuthenticatedUser (id : pk) (staff : bool).

Definition is_authenticated (u : RequestUser) : bool :=
  match u with AnonymousUser => false | AuthenticatedUser _ _ => true end.

Definition user_is_staff (u : RequestUser) : bool :=
  match u with AnonymousUser => false | AuthenticatedUser _ s => s end.

Definition user_id (u : RequestUser) : option pk :=
  match u with AnonymousUser => None | AuthenticatedUser i _ => Some i end.

(** [obj.user == request.user]: model instances are equal when their
    primary keys are; the anonymous user equals no stored user. *)
Definition same_user (owner : pk) (u : RequestUser) : bool :=
  match u with
  | AnonymousUser => false
  | AuthenticatedUser i _ => bool_decide (owner = i)
  end.

(** Values of request payloads and of validated serializer data. *)
Inductive Value :=
| VNull
| VBool (b : bool)
| VInt (z : Z)
| VStr (s : string)
| VRef (id : pk).

Abbreviation Fields := (gmap string Value).

Definition as_int (v : Value) : option Z :=
  match v with VInt z => Some z | _ => None end.
Definition as_str (v : Value) : option string :=
  match v with VStr s => Some s | _ => None end.
Definition as_ref (v : Value) : option pk :=
  match v with VRef i => Some i | _ => None end.

(** The cleaned query parameters [ProductFilter] declares. *)
Record QueryParams := mkQuery {
  q_category : option pk;
  q_min_price : option Qc;
  q_max_price : option Qc;
  q_in_stock : option bool
}.

Definition no_query : QueryParams := mkQuery None None None None.

Record Request := mkRequest {
  method : string;
  user : RequestUser;
  query_params : QueryParams;
  data : Fields
}.

(** The actions the router binds on a model view set, and the HTTP
    method each one is reached by. *)
Inductive Action :=
| act_list | act_create | act_retrieve
| act_update | act_partial_update | act_destroy.

Definition action_method (a : Action) : string :=
  match a with
  | act_list | act_retrieve => "GET"
  | act_create => "POST"
  | act_update => "PUT"
  | act_partial_update => "PATCH"
  | act_destroy => "DELETE"
  end.

Definition initialize_request (a : Action) (u : RequestUser)
    (q : QueryParams) (d : Fields) : Request :=
  mkRequest (action_method a) u q d.

(** Status codes. *)
Definition HTTP_200_OK := 200.
Definition HTTP_201_CREATED := 201.
Definition HTTP_204_NO_CONTENT := 204.
Definition HTTP_400_BAD_REQUEST := 400.
Definition HTTP_401_UNAUTHORIZED := 401.
Definition HTTP_403_FORBIDDEN := 403.
Definition HTTP_404_NOT_FOUND := 404.
Definition HTTP_500_INTERNAL_SERVER_ERROR := 500.

(** A handler either returns a value or raises an exception that the
    endpoint boundary turns into a status code. *)
Inductive Result (A : Type) :=
| Ok (a : A)
| Raise (status : Z).
Arguments Ok {A} a.
Arguments Raise {A} status.

Definition bind {A B} (r : Result A) (k : A -> Result B) : Result B :=
  match r with Ok a => k a | Raise s => Raise s end.

Notation "'do' x <- r ; k" := (bind r (fun x => k))
  (at level 10, x name, r at level 100, k at level 200).

Inductive Data (Row : Type) :=
| NoData
| Instance (id : pk) (row : Row)
| Collection (rows : QuerySet Row).
Arguments NoData {Row}.
Arguments Instance {Row} id row.
Arguments Collection {Row} rows.

Record Response (Row : Type) := mkResponse {
  status_code : Z;
  body : Data Row
}.
Arguments mkResponse {Row} status_code body.
Arguments status_code {Row} r.
Arguments body {Row} r.

(** [rest_framework.permissions.BasePermission]: the interface of a
    permission class. *)
Record BasePermission (Row : Type) := mkPermission {
  has_permission : Request -> bool;
  has_object_permission : Request -> Row -> bool
}.
Arguments mkPermission {Row} has_permission has_object_permission.
Arguments has_permission {Row} b r.
Arguments has_object_permission {Row} b r obj.

Definition SAFE_METHODS : list string := ["GET"; "HEAD"; "OPTIONS"].

(** Modelled from the spec: the framework's permission class that
    "requires an authenticated actor" (section 4.1); its object-level
    check is the interface's default, which allows. *)
Definition IsAuthenticated {Row} : BasePermission Row :=
  mkPermission (fun request => is_authenticated (user request))
               (fun _ _ => true).

(** Modelled from the spec: the framework's permission class behind
    "read actions allowed for any actor, write actions require an
    authenticated actor" (section 4.1). *)
Definition IsAuthenticatedOrReadOnly {Row} : BasePermission Row :=
  mkPermission
    (fun request =>
       bool_decide (method request ∈ SAFE_METHODS)
       || is_authenticated (user request))
    (fun _ _ => true).

(** A serializer class: validation of a payload (against the instance on
    update, where [partial] lets fields be left out), and the two ways
    [save] persists validated data. *)
Record Serializer (Row : Type) := mkSerializer {
  run_validation : option Row -> bool -> Fields -> option Fields;
  ser_create : Fields -> option Row;
  ser_update : Row -> Fields -> option Row
}.
Arguments mkSerializer {Row} run_validation ser_create ser_update.
Arguments run_validation {Row} s instance partial payload.
Arguments ser_create {Row} s validated_data.
Arguments ser_update {Row} s instance validated_data.

(** [serializer.save] with keyword arguments: they are merged over the
    validated data, an argument replacing the entry of the same name,
    before the instance is created or updated; an exception of the
    model layer surfaces as a server error. *)
Definition save {Row} (s : Serializer Row) (instance : option Row)
    (validated_data kwargs : Fields) : Result Row :=
  let merged := kwargs ∪ validated_data in
  match
    match instance with
    | None => ser_create s merged
    | Some obj => ser_update s obj merged
    end
  with
  | Some row => Ok row
  | None => Raise HTTP_500_INTERNAL_SERVER_ERROR
  end.

(** An authentication class, as far as the answer to a refused request
    depends on it: the challenge it names for the [WWW-Authenticate]
    header, if it names one. *)
Record Authentication := mkAuthentication {
  authenticate_header : option string
}.

(** [rest_framework_simplejwt.authentication.JWTAuthentication]
    challenges with a bearer header. *)
Definition JWTAuthentication : Authentication :=
  mkAuthentication (Some "Bearer").

(** The status of a request that was refused while no authentication
    class had identified its user: 401 when the first authentication
    class of the view names a challenge, 403 otherwise. *)
Definition not_authenticated_status (classes : list Authentication) : Z :=
  match classes with
  | auth :: _ =>
      match authenticate_header auth with
      | Some _ => HTTP_401_UNAUTHORIZED
      | None => HTTP_403_FORBIDDEN
      end
  | [] => HTTP_403_FORBIDDEN
  end.

(** A model view set: what a view class of [views.py] fixes, and what
    the model layer does to the rows that refer to a row about to be
    deleted ([delete_related], which [models.py] decides). *)
Record ModelViewSet (Row : Type) := mkViewSet {
  objects : Store -> QuerySet Row;
  set_objects : QuerySet Row -> Store -> Store;
  serializer_class : Serializer Row;
  get_permissions : Action -> list (BasePermission Row);
  get_queryset : Request -> Store -> Result (QuerySet Row);
  filter_queryset : Request -> Store -> QuerySet Row -> Result (QuerySet Row);
  perform_create : Request -> Fields -> Result Row;
  authentication_classes : list Authentication;
  delete_related : pk -> Store -> Result Store
}.
Arguments mkViewSet {Row}.
Arguments objects {Row} m s.
Arguments set_objects {Row} m q s.
Arguments serializer_class {Row} m.
Arguments get_permissions {Row} m a.
Arguments get_queryset {Row} m request s.
Arguments filter_queryset {Row} m request s qs.
Arguments perform_create {Row} m request validated_data.
Arguments authentication_classes {Row} m.
Arguments delete_related {Row} m id s.

Section Pipeline.
Context {Row : Type} (view : ModelViewSet Row).

(** A failed permission check: a request whose user no authentication
    class identified is answered as not authenticated, any other
    request with 403. *)
Definition permission_denied {A} (request : Request) : Result A :=
  match user request with
  | AnonymousUser =>
      Raise (not_authenticated_status (authentication_classes view))
  | AuthenticatedUser _ _ => Raise HTTP_403_FORBIDDEN
  end.

(** Every permission object of the view has to grant the request. *)
Definition check_permissions (a : Action) (request : Request) : Result unit :=
  if forallb (fun p => has_permission p request) (get_permissions view a)
  then Ok tt else permission_denied request.

Definition check_object_permissions (a : Action) (request : Request)
    (obj : Row) : Result unit :=
  if forallb (fun p => has_object_permission p request obj)
             (get_permissions view a)
  then Ok tt else permission_denied request.

(** The object is looked up in the filtered queryset of the view; a
    key outside of it is not found, and a found object still has to
    pass the object-level permissions. *)
Definition get_object (a : Action) (request : Request) (s : Store)
    (id : pk) : Result Row :=
  do qs <- get_queryset view request s;
  do qs <- filter_queryset view request s qs;
  match qs !! id with
  | None => Raise HTTP_404_NOT_FOUND
  | Some obj =>
      do _ <- check_object_permissions a request obj;
      Ok obj
  end.

Definition validated (instance : option Row) (partial : bool)
    (request : Request) : Result Fields :=
  match
    run_validation (serializer_class view) instance partial (data request)
  with
  | Some d => Ok d
  | None => Raise HTTP_400_BAD_REQUEST
  end.

(** What [update] does with the object once it is found and
    permitted: validate the payload against it, save, answer 200. *)
Definition apply_update (partial : bool) (request : Request) (id : pk)
    (obj : Row) (s : Store) : Result (Response Row * Store) :=
  do d <- validated (Some obj) partial request;
  do row <- save (serializer_class view) (Some obj) d ∅;
  Ok (mkResponse HTTP_200_OK (Instance id row),
      set_objects view (<[id := row]> (objects view s)) s).

(** What [create] does once the request is permitted: validate the
    payload, let the view persist it, answer 201. *)
Definition apply_create (request : Request) (s : Store)
    : Result (Response Row * Store) :=
  do d <- validated None false request;
  do row <- perform_create view request d;
  let id' := next_pk (objects view s) in
  Ok (mkResponse HTTP_201_CREATED (Instance id' row),
      set_objects view (<[id' := row]> (objects view s)) s).

(** The handler of each action, after the permission check. The body of
    a listing is the result set; the order of its rows and the cutting
    into pages are left to the presentation. A delete first lets the
    model layer deal with the rows that refer to the object, then
    removes the object from its table. *)
Definition handler (a : Action) (request : Request) (id : pk) (s : Store)
    : Result (Response Row * Store) :=
  match a with
  | act_list =>
      do qs <- get_queryset view request s;
      do qs <- filter_queryset view request s qs;
      Ok (mkResponse HTTP_200_OK (Collection qs), s)
  | act_create => apply_create request s
  | act_retrieve =>
      do obj <- get_object a request s id;
      Ok (mkResponse HTTP_200_OK (Instance id obj), s)
  | act_update =>
      do obj <- get_object a request s id;
      apply_update false request id obj s
  | act_partial_update =>
      do obj <- get_object a request s id;
      apply_update true request id obj s
  | act_destroy =>
      do _ <- get_object a request s id;
      do s1 <- delete_related view id s;
      Ok (mkResponse HTTP_204_NO_CONTENT NoData,
          set_objects view (delete id (objects view s1)) s1)
  end.

(** An exception leaves the store as it was. *)
Definition handle_exception (s : Store)
    (r : Result (Response Row * Store)) : Response Row * Store :=
  match r with
  | Ok out => out
  | Raise status => (mkResponse status NoData, s)
  end.

Definition dispatch (a : Action) (request : Request) (id : pk) (s : Store)
    : Response Row * Store :=
  handle_exception s
    (do _ <- check_permissions a request;
     handler a request id s).

(** A request of actor [u] for action [a], routed to the view; [id]
    is the key in the URL of the detail actions. *)
Definition call (a : Action) (u : RequestUser) (q : QueryParams)
    (d : Fields) (id : pk) (s : Store) : Response Row * Store :=
  dispatch a (initialize_request a u q d) id s.

End Pipeline.

End Framework.
Export Framework.

(** ** [serializers.py]

    The serializer classes are imported by [views.py] but are not part of
    the sources: the views are defined over any serializer, and only the
    review serializer is given its model behaviour where [perform_create]
    relies on it. *)

Module Serializers.

Definition set_field {A} (d : Fields) (key : string)
    (conv : Value -> option A) (current : A) : option A :=
  match d !! key with
  | None => Some current
  | Some v => conv v
  end.

(** Modelled from the spec: [Review.objects.create] with the validated
    data as keyword arguments; the review row takes its product, its
    author (the field [user]), its rating and its comment from the
    entries of these names, and a missing or ill-typed entry is an
    exception. *)
Definition Review_objects_create (d : Fields) : option Review :=
  p ← d !! "product" ≫= as_ref;
  u ← d !! "user" ≫= as_ref;
  r ← d !! "rating" ≫= as_int;
  c ← d !! "comment" ≫= as_str;
  Some (mkReview p u r c).

(** Modelled from the spec: the update of a model serializer assigns
    every validated entry to the field of its name and saves. *)
Definition Review_update (obj : Review) (d : Fields) : option Review :=
  p ← set_field d "product" as_ref (review_product obj);
  u ← set_field d "user" as_ref (review_user obj);
  r ← set_field d "rating" as_int (rating obj);
  c ← set_field d "comment" as_str (comment obj);
  Some (mkReview p u r c).

Definition ReviewSerializer
    (validation : option Review -> bool -> Fields -> option Fields)
    : Serializer Review :=
  mkSerializer validation Review_objects_create Review_update.

End Serializers.
Export Serializers.

(** ** [views.py] *)

(** A model instance passed as a keyword argument; the anonymous user is
    not a reference to a stored user. *)
Definition instance_value (u : RequestUser) : Value :=
  match u with
  | AuthenticatedUser i _ => VRef i
  | AnonymousUser => VNull
  end.

(** The [perform_create] a view inherits: [serializer.save()]. *)
Definition default_perform_create {Row} (s : Serializer Row)
    (request : Request) (validated_data : Fields) : Result Row :=
  save s None validated_data ∅.

(** No row of the store refers to a row of the table. *)
Definition nothing_related (id : pk) (s : Store) : Result Store := Ok s.

(** A view without filter declarations serves its queryset as it is. *)
Definition no_filter {Row} (request : Request) (s : Store)
    (qs : QuerySet Row) : Result (QuerySet Row) :=
  Ok qs.

Module UserViewSet.

Definition permission_classes : list (BasePermission User) :=
  [IsAuthenticated].

Definition get_permissions (action : Action) : list (BasePermission User) :=
  match action with
  | act_create => []
  | _ => [IsAuthenticated]
  end.

(** [User.objects.all()] for staff, [User.objects.filter(id=...)] with
    the id of the requesting user otherwise (the anonymous user has no
    id, and no row matches it). *)
Definition get_queryset (request : Request) (s : Store)
    : Result (QuerySet User) :=
  if user_is_staff (user request) then Ok (users s)
  else Ok (filter (fun row => Some row.1 = user_id (user request)) (users s)).

Definition authentication_classes : list Authentication :=
  [JWTAuthentication].

Definition view (serializer_class : Serializer User)
    (delete_related : pk -> Store -> Result Store) : ModelViewSet User :=
  mkViewSet users
    (fun q s => mkStore q (categories s) (products s) (orders s) (reviews s))
    serializer_class get_permissions get_queryset no_filter
    (default_perform_create serializer_class)
    authentication_classes delete_related.

End UserViewSet.

Module ProductFilter.

Inductive lookup_expr := exact | gte | lte | gt.

Definition lookup_Qc (l : lookup_expr) (field value : Qc) : bool :=
  match l with
  | exact => bool_decide (field = value)
  | gte => bool_decide (value ≤ field)%Qc
  | lte => bool_decide (field ≤ value)%Qc
  | gt => bool_decide (value < field)%Qc
  end.

Definition lookup_Z (l : lookup_expr) (field value : Z) : bool :=
  match l with
  | exact => bool_decide (field = value)
  | gte => bool_decide (value ≤ field)
  | lte => bool_decide (field ≤ value)
  | gt => bool_decide (value < field)
  end.

(** [NumberFilter(field_name, lookup_expr)]: an absent parameter leaves
    the queryset alone, a number [v] keeps the rows whose field stands
    in the lookup's relation to [v]. *)
Definition NumberFilter (field : Product -> Qc) (l : lookup_expr)
    (value : option Qc) (qs : QuerySet Product) : QuerySet Product :=
  match value with
  | None => qs
  | Some v => filter (fun row => lookup_Qc l (field row.2) v = true) qs
  end.

(** [BooleanFilter(field_name, lookup_expr)]: the cleaned value is a
    boolean, and it is the right-hand side of the lookup; against an
    integer column the boolean counts as the integer it is, [True] as 1
    and [False] as 0. *)
Definition BooleanFilter (field : Product -> Z) (l : lookup_expr)
    (value : option bool) (qs : QuerySet Product) : QuerySet Product :=
  match value with
  | None => qs
  | Some b => filter (fun row => lookup_Z l (field row.2) (Z.b2z b) = true) qs
  end.

(** [ModelChoiceFilter(queryset)]: the value has to be a row of the
    choice queryset, and the rows referring to it are kept. *)
Definition ModelChoiceFilter {A} (field : Product -> option pk)
    (choices : QuerySet A) (value : option pk) (qs : QuerySet Product)
    : Result (QuerySet Product) :=
  match value with
  | None => Ok qs
  | Some c =>
      if bool_decide (is_Some (choices !! c))
      then Ok (filter (fun row => field row.2 = Some c) qs)
      else Raise HTTP_400_BAD_REQUEST
  end.

Definition min_price := NumberFilter price gte.
Definition max_price := NumberFilter price lte.
Definition category (s : Store) := ModelChoiceFilter Models.category (categories s).
Definition in_stock := BooleanFilter stock_quantity gt.

(** The filter set applies every declared filter to the queryset. *)
Definition filter_queryset (request : Request) (s : Store)
    (qs : QuerySet Product) : Result (QuerySet Product) :=
  let q := query_params request in
  do qs <- category s (q_category q) qs;
  Ok (in_stock (q_in_stock q)
        (max_price (q_max_price q)
           (min_price (q_min_price q) qs))).

End ProductFilter.

Module ProductPagination.
Definition page_size : nat := 10.
End ProductPagination.

Module ProductViewSet.

Definition permission_classes : list (BasePermission Product) :=
  [IsAuthenticatedOrReadOnly].

(** [Product.objects.select_related('category').all()]: the join only
    loads the category with each row. Of the query shaping the view
    declares, the filter set is part of this development; the text search
    and the ordering of the listing are not. *)
Definition get_queryset (request : Request) (s : Store)
    : Result (QuerySet Product) :=
  Ok (products s).

Definition authentication_classes : list Authentication :=
  [JWTAuthentication].

Definition view (serializer_class : Serializer Product)
    (delete_related : pk -> Store -> Result Store) : ModelViewSet Product :=
  mkViewSet products
    (fun q s => mkStore (users s) (categories s) q (orders s) (reviews s))
    serializer_class (fun _ => permission_classes) get_queryset
    ProductFilter.filter_queryset
    (default_perform_create serializer_class)
    authentication_classes delete_related.

End ProductViewSet.

Module IsAdminOrReadOnly.

Definition has_permission (request : Request) : bool :=
  if bool_decide (method request ∈ ["GET"; "HEAD"; "OPTIONS"; "POST"])
  then is_authenticated (user request)
  else user_is_staff (user request).

Definition has_object_permission (request : Request) (obj : Order) : bool :=
  if bool_decide (method request = "GET") && same_user (order_user obj) (user request)
  then true
  else if bool_decide (method request ∈ ["PUT"; "DELETE"])
  then
    if user_is_staff (user request) then true
    else same_user (order_user obj) (user request)
  else false.

Definition permission : BasePermission Order :=
  mkPermission has_permission has_object_permission.

End IsAdminOrReadOnly.

Module OrderViewSet.

Definition permission_classes : list (BasePermission Order) :=
  [IsAuthenticated; IsAdminOrReadOnly.permission].

(** All orders for staff; otherwise [Order.objects.filter(user=...)]
    with the requesting user, which the model layer refuses for the
    anonymous user. The joins and prefetches only load related rows. *)
Definition get_queryset (request : Request) (s : Store)
    : Result (QuerySet Order) :=
  if user_is_staff (user request) then Ok (orders s)
  else
    match user_id (user request) with
    | Some i => Ok (filter (fun row => order_user row.2 = i) (orders s))
    | None => Raise HTTP_500_INTERNAL_SERVER_ERROR
    end.

Definition authentication_classes : list Authentication :=
  [JWTAuthentication].

(** The line items of an order are part of its row, and no other table
    refers to an order. *)
Definition view (serializer_class : Serializer Order) : ModelViewSet Order :=
  mkViewSet orders
    (fun q s => mkStore (users s) (categories s) (products s) q (reviews s))
    serializer_class (fun _ => permission_classes) get_queryset no_filter
    (default_perform_create serializer_class)
    authentication_classes nothing_related.

End OrderViewSet.

Module ReviewViewSet.

Definition queryset (s : Store) : QuerySet Review := reviews s.

Definition permission_classes : list (BasePermission Review) :=
  [IsAuthenticated].

(** [serializer.save(user=self.request.user)] *)
Definition perform_create (serializer : Serializer Review)
    (request : Request) (validated_data : Fields) : Result Review :=
  save serializer None validated_data
       {[ "user" := instance_value (user request) ]}.

(** The view names no authentication classes: it has the default ones of
    the settings, which are not part of the sources. No table refers to a
    review. *)
Definition view (serializer_class : Serializer Review)
    (DEFAULT_AUTHENTICATION_CLASSES : list Authentication)
    : ModelViewSet Review :=
  mkViewSet reviews
    (fun q s => mkStore (users s) (categories s) (products s) (orders s) q)
    serializer_class (fun _ => permission_classes)
    (fun _ s => Ok (queryset s)) no_filter
    (perform_create serializer_class)
    DEFAULT_AUTHENTICATION_CLASSES nothing_related.

End ReviewViewSet.

Module CategoryViewSet.

Definition permission_classes : list (BasePermission Category) :=
  [IsAuthenticatedOrReadOnly].

Definition get_queryset (request : Request) (s : Store)
    : Result (QuerySet Category) :=
  Ok (categories s).

Definition authentication_classes : list Authentication :=
  [JWTAuthentication].

Definition view (serializer_class : Serializer Category)
    (delete_related : pk -> Store -> Result Store) : ModelViewSet Category :=
  mkViewSet categories
    (fun q s => mkStore (users s) q (products s) (orders s) (reviews s))
    serializer_class (fun _ => permission_classes) get_queryset no_filter
    (default_perform_create serializer_class)
    authentication_classes delete_related.

End CategoryViewSet.

(** ** Sample data *)

Module Sample.

(** A serializer that accepts every payload as it is. *)
Definition accept_all {Row} (make : Fields -> option Row) : Serializer Row :=
  mkSerializer (fun _ _ d => Some d) make
    (fun obj d => Some (default obj (make d))).

Definition make_user (d : Fields) : option User :=
  n ← d !! "username" ≫= as_str;
  Some (mkUser n false).

Definition make_order (d : Fields) : option Order :=
  u ← d !! "user" ≫= as_ref;
  p ← d !! "product" ≫= as_ref;
  n ← d !! "quantity" ≫= as_int;
  Some (mkOrder u [(p, n)]).

Definition make_category (d : Fields) : option Category :=
  n ← d !! "name" ≫= as_str;
  Some (mkCategory n).

Definition UserSerializer : Serializer User := accept_all make_user.
Definition OrderSerializer : Serializer Order := accept_all make_order.
Definition ProductSerializer : Serializer Product := accept_all (fun _ => None).
Definition CategorySirializers : Serializer Category := accept_all make_category.
Definition review_validation (instance : option Review) (partial : bool)
    (d : Fields) : option Fields := Some d.

(** A model layer that deletes the orders and the reviews of a deleted
    user, and the reviews of a deleted product. *)
Definition User_delete (id : pk) (s : Store) : Result Store :=
  Ok (mkStore (users s) (categories s) (products s)
        (filter (fun row : pk * Order => order_user row.2 ≠ id) (orders s))
        (filter (fun row : pk * Review => review_user row.2 ≠ id) (reviews s))).

Definition Product_delete (id : pk) (s : Store) : Result Store :=
  Ok (mkStore (users s) (categories s) (products s) (orders s)
        (filter (fun row : pk * Review => review_product row.2 ≠ id)
           (reviews s))).

Definition DEFAULT_AUTHENTICATION_CLASSES : list Authentication :=
  [mkAuthentication None].

Definition decimal (n : Z) (d : positive) : Qc := Q2Qc (n # d).

Definition admin : RequestUser := AuthenticatedUser 1 true.
Definition alice : RequestUser := AuthenticatedUser 2 false.
Definition bob : RequestUser := AuthenticatedUser 3 false.

Definition nail := mkProduct "nail" (decimal 1099 100) 1 (Some 1).
Definition saw := mkProduct "saw" (decimal 15 1) 0 None.
Definition drill := mkProduct "drill" (decimal 25 1) 5 (Some 1).

Definition alice_order := mkOrder 2 [(1, 2)].
Definition alice_review := mkReview 1 2 5 "ok".

Definition store : Store :=
  mkStore
    (<[1 := mkUser "admin" true]>
       (<[2 := mkUser "alice" false]> (<[3 := mkUser "bob" false]> ∅)))
    (<[1 := mkCategory "tools"]> ∅)
    (<[1 := nail]> (<[2 := saw]> (<[3 := drill]> ∅)))
    (<[7 := alice_order]> ∅)
    (<[4 := alice_review]> ∅).

Definition review_payload : Fields :=
  <["user" := VRef 2]>
    (<["product" := VRef 1]>
       (<["rating" := VInt 4]> (<["comment" := VStr "fine"]> ∅))).

Definition user_payload : Fields :=
  <["username" := VStr "carol"]> (<["password" := VStr "secret"]> ∅).

Definition order_payload : Fields :=
  <["user" := VRef 2]>
    (<["product" := VRef 1]> (<["quantity" := VInt 2]> ∅)).

Definition price_query : QueryParams :=
  mkQuery (Some 1) (Some (decimal 10 1)) (Some (decimal 20 1)) None.

End Sample.

(** ** Properties of the views *)

Section Views.

Context (UserSerializer : Serializer User)
        (ProductSerializer : Serializer Product)
        (OrderSerializer : Serializer Order)
        (CategorySirializers : Serializer Category)
        (review_validation : option Review -> bool -> Fields -> option Fields)
        (User_delete Product_delete Category_delete
           : pk -> Store -> Result Store)
        (DEFAULT_AUTHENTICATION_CLASSES : list Authentication).

Local Abbreviation users_view := (UserViewSet.view UserSerializer User_delete).
Local Abbreviation products_view :=
  (ProductViewSet.view ProductSerializer Product_delete).
Local Abbreviation orders_view := (OrderViewSet.view OrderSerializer).
Local Abbreviation categories_view :=
  (CategoryViewSet.view CategorySirializers Category_delete).
Local Abbreviation reviews_view :=
  (ReviewViewSet.view (ReviewSerializer review_validation)
     DEFAULT_AUTHENTICATION_CLASSES).

(** *** Orders *)

Lemma order_owner_cases (o : Order) (i : pk) :
  (order_user o = i ∧ bool_decide (order_user o = i) = true)
  ∨ (order_user o ≠ i ∧ bool_decide (order_user o = i) = false).
Proof.
  destruct (decide (order_user o = i)) as [E|E].
  - left; split; [done | by apply bool_decide_eq_true].
  - right; split; [done | by apply bool_decide_eq_false].
Qed.

(** The orders a non-staff user can look up are the stored orders that
    user owns. *)
Lemma orders_of_user_lookup (s : Store) (i k : pk) :
  filter (fun row : pk * Order => order_user row.2 = i) (orders s) !! k
  = match orders s !! k with
    | Some o => if bool_decide (order_user o = i) then Some o else None
    | None => None
    end.
Proof.
  destruct (orders s !! k) as [o|] eqn:E.
  - destruct (order_owner_cases o i) as [[Ho ->]|[Ho ->]].
    + apply map_lookup_filter_Some; by split.
    + apply map_lookup_filter_None; right. intros o' E'. simpl.
      rewrite E in E'. by simplify_eq.
  - apply map_lookup_filter_None; by left.
Qed.

(** Retrieve of a stored order by a staff user: the queryset holds
    every order, and the object-level check grants GET to the owner
    only. *)
Lemma order_retrieve_staff (s : Store) (i k : pk) (o : Order)
    (q : QueryParams) (d : Fields) :
  orders s !! k = Some o ->
  call orders_view act_retrieve (AuthenticatedUser i true) q d k s
  = if bool_decide (order_user o = i)
    then (mkResponse HTTP_200_OK (Instance k o), s)
    else (mkResponse HTTP_403_FORBIDDEN NoData, s).
Proof.
  intros E. unfold call, dispatch, check_permissions, handler, get_object.
  cbn. rewrite E. cbn.
  unfold check_object_permissions. cbn.
  unfold IsAdminOrReadOnly.has_object_permission. cbn.
  by destruct (order_owner_cases o i) as [[_ ->]|[_ ->]].
Qed.

(** C4: a non-staff authenticated user who retrieves a stored order of
    another user is answered 404 with no data, the order being outside
    that user's queryset; retrieving an order of their own is answered
    200 with the order. *)
Theorem nonstaff_retrieve_order (s : Store) (i k : pk) (o : Order)
    (q : QueryParams) (d : Fields) :
  orders s !! k = Some o ->
  (order_user o ≠ i ->
   call orders_view act_retrieve (AuthenticatedUser i false) q d k s
   = (mkResponse HTTP_404_NOT_FOUND NoData, s))
  ∧ (order_user o = i ->
     call orders_view act_retrieve (AuthenticatedUser i false) q d k s
     = (mkResponse HTTP_200_OK (Instance k o), s)).
Proof.
  intros E.
  assert (call orders_view act_retrieve (AuthenticatedUser i false) q d k s
          = if bool_decide (order_user o = i)
            then (mkResponse HTTP_200_OK (Instance k o), s)
            else (mkResponse HTTP_404_NOT_FOUND NoData, s)) as ->.
  { unfold call, dispatch, check_permissions, handler, get_object.
    cbn. rewrite orders_of_user_lookup, E.
    destruct (order_owner_cases o i) as [[_ Hb]|[_ Hb]]; rewrite Hb; cbn; [|done].
    unfold check_object_permissions. cbn.
    unfold IsAdminOrReadOnly.has_object_permission. cbn.
    by rewrite Hb. }
  split; intros H.
  - by rewrite bool_decide_eq_false_2.
  - by rewrite bool_decide_eq_true_2.
Qed.

(** What the update handler answers once the object is found and
    permitted: 200, or 400 from validation, or 500 from the model layer;
    never a denial. *)
Lemma apply_update_status {Row} (view : ModelViewSet Row) (partial : bool)
    (request : Request) (id : pk) (obj : Row) (s : Store) :
  status_code
    (handle_exception s (apply_update view partial request id obj s)).1
  ∈ [HTTP_200_OK; HTTP_400_BAD_REQUEST; HTTP_500_INTERNAL_SERVER_ERROR].
Proof.
  unfold apply_update, validated, save.
  destruct (run_validation _ _ _ _) as [d'|]; cbn;
    [|apply list_elem_of_further, list_elem_of_here].
  destruct (ser_update _ _ _) as [row|]; cbn.
  - apply list_elem_of_here.
  - do 2 apply list_elem_of_further. apply list_elem_of_here.
Qed.

(** C2 (as the code has it): for a stored order and an authenticated
    actor, update (PUT) and delete are permitted exactly when the actor
    is staff. Both gates have to grant: the collection-level gate admits
    staff only, so a non-staff actor, owner or not, is answered 403 and
    the store is unchanged; a staff actor passes both gates for every
    order, the update goes on to validation and saving and the delete
    removes the order and answers 204. *)
Theorem order_update_delete_staff_only (s : Store) (i k : pk) (staff : bool)
    (o : Order) (q : QueryParams) (d : Fields) :
  orders s !! k = Some o ->
  let u := AuthenticatedUser i staff in
  (staff = false ->
   call orders_view act_update u q d k s
   = (mkResponse HTTP_403_FORBIDDEN NoData, s)
   ∧ call orders_view act_destroy u q d k s
     = (mkResponse HTTP_403_FORBIDDEN NoData, s))
  ∧ (staff = true ->
     call orders_view act_update u q d k s
     = handle_exception s
         (apply_update orders_view false
            (initialize_request act_update u q d) k o s)
     ∧ (call orders_view act_update u q d k s).1.(status_code)
       ≠ HTTP_403_FORBIDDEN
     ∧ call orders_view act_destroy u q d k s
       = (mkResponse HTTP_204_NO_CONTENT NoData,
          set_objects orders_view (delete k (orders s)) s)).
Proof.
  intros E u. split; intros ->; subst u.
  - by split.
  - assert (call orders_view act_update (AuthenticatedUser i true) q d k s
            = handle_exception s
                (apply_update orders_view false
                   (initialize_request act_update (AuthenticatedUser i true) q d)
                   k o s)) as Hu.
    { unfold call, dispatch, check_permissions, handler, get_object.
      cbn. rewrite E. reflexivity. }
    split; [exact Hu|]. split.
    + rewrite Hu.
      pose proof (apply_update_status orders_view false
                    (initialize_request act_update (AuthenticatedUser i true) q d)
                    k o s) as H.
      intros Hs. rewrite Hs in H.
      apply list_elem_of_In in H. cbn in H.
      unfold HTTP_403_FORBIDDEN, HTTP_200_OK, HTTP_400_BAD_REQUEST,
        HTTP_500_INTERNAL_SERVER_ERROR in H. lia.
    + unfold call, dispatch, check_permissions, handler, get_object.
      cbn. rewrite E. reflexivity.
Qed.

(** C10: the object-level check of the order permission refuses PATCH
    for every actor and order, as it refuses every method other than GET,
    PUT and DELETE; a partial update of a stored order is refused for
    every actor, with no data and the store unchanged: an authenticated
    actor, staff included, is answered 403, and the anonymous one is
    answered 401 at the authentication challenge of the view. *)
Theorem order_patch_denied (s : Store) (u : RequestUser) (k : pk) (o : Order)
    (q : QueryParams) (d : Fields) (m : string) :
  orders s !! k = Some o ->
  IsAdminOrReadOnly.has_object_permission
    (initialize_request act_partial_update u q d) o = false
  ∧ (m ∉ ["GET"; "PUT"; "DELETE"] ->
     IsAdminOrReadOnly.has_object_permission (mkRequest m u q d) o = false)
  ∧ call orders_view act_partial_update u q d k s
    = (mkResponse
         (if is_authenticated u
          then HTTP_403_FORBIDDEN else HTTP_401_UNAUTHORIZED)
         NoData, s).
Proof.
  intros E. split; [reflexivity|]. split.
  - intros Hm. apply not_elem_of_cons in Hm as [Hget Hm].
    unfold IsAdminOrReadOnly.has_object_permission. cbn.
    rewrite (bool_decide_eq_false_2 (m = "GET")) by exact Hget.
    rewrite (bool_decide_eq_false_2 (m ∈ ["PUT"; "DELETE"])) by exact Hm.
    reflexivity.
  - unfold call, dispatch, check_permissions, handler, get_object.
    destruct u as [|i [|]]; cbn; try reflexivity.
    by rewrite E.
Qed.

(** *** Reviews *)

(** The keyword argument [user] of [save] replaces whatever the validated
    data holds under that name. *)
Lemma save_user_kwarg (d : Fields) (v : Value) :
  ({[ "user" := v ]} ∪ d : Fields) = <[ "user" := v ]> d.
Proof. by rewrite insert_union_singleton_l. Qed.

Lemma Review_objects_create_user (d : Fields) (i : pk) (row : Review) :
  Review_objects_create (<[ "user" := VRef i ]> d) = Some row ->
  review_user row = i.
Proof.
  unfold Review_objects_create.
  rewrite lookup_insert_ne by done. rewrite lookup_insert_eq.
  rewrite !lookup_insert_ne by done.
  destruct (d !! "product" ≫= as_ref) as [p|]; cbn; [|done].
  destruct (d !! "rating" ≫= as_int) as [r|]; cbn; [|done].
  destruct (d !! "comment" ≫= as_str) as [c|]; cbn; [|done].
  by intros [= <-].
Qed.

Lemma Review_objects_create_fields (d : Fields) (i p r : Z) (c : string) :
  d !! "product" = Some (VRef p) ->
  d !! "rating" = Some (VInt r) ->
  d !! "comment" = Some (VStr c) ->
  Review_objects_create (<[ "user" := VRef i ]> d) = Some (mkReview p i r c).
Proof.
  intros Hp Hr Hc. unfold Review_objects_create.
  rewrite lookup_insert_ne by done. rewrite lookup_insert_eq.
  rewrite !lookup_insert_ne by done.
  by rewrite Hp, Hr, Hc.
Qed.

(** The create handler of the review view for an authenticated actor, in
    terms of the validated payload. *)
Lemma review_create_unfold (s : Store) (i : pk) (staff : bool)
    (q : QueryParams) (d : Fields) (id : pk) :
  call reviews_view act_create (AuthenticatedUser i staff) q d id s
  = match review_validation None false d with
    | None => (mkResponse HTTP_400_BAD_REQUEST NoData, s)
    | Some d' =>
        match Review_objects_create (<[ "user" := VRef i ]> d') with
        | None => (mkResponse HTTP_500_INTERNAL_SERVER_ERROR NoData, s)
        | Some row =>
            (mkResponse HTTP_201_CREATED (Instance (next_pk (reviews s)) row),
             set_objects reviews_view
               (<[ next_pk (reviews s) := row ]> (reviews s)) s)
        end
    end.
Proof.
  unfold call, dispatch, check_permissions, handler, apply_create, validated.
  cbn. destruct (review_validation None false d) as [d'|]; cbn; [|done].
  unfold ReviewViewSet.perform_create, save. cbn.
  rewrite save_user_kwarg.
  by destruct (Review_objects_create _).
Qed.

(** C5: when an authenticated actor creates a review, whatever the
    payload and whatever author entry passes validation, the review that
    is stored has the acting user as its author: a validated payload with
    a product, a rating and a comment is stored with the actor's id in
    [user] and answered 201; every 201 answer stores a review of the
    actor; any other answer stores nothing. *)
Theorem review_author_is_actor (s : Store) (i : pk) (staff : bool)
    (q : QueryParams) (d : Fields) (id : pk) :
  let out := call reviews_view act_create (AuthenticatedUser i staff) q d id s in
  let id' := next_pk (reviews s) in
  (forall d' p r c,
     review_validation None false d = Some d' ->
     d' !! "product" = Some (VRef p) ->
     d' !! "rating" = Some (VInt r) ->
     d' !! "comment" = Some (VStr c) ->
     out = (mkResponse HTTP_201_CREATED (Instance id' (mkReview p i r c)),
            set_objects reviews_view
              (<[ id' := mkReview p i r c ]> (reviews s)) s))
  ∧ (status_code out.1 = HTTP_201_CREATED ->
     exists row,
       review_user row = i
       ∧ out = (mkResponse HTTP_201_CREATED (Instance id' row),
                set_objects reviews_view (<[ id' := row ]> (reviews s)) s))
  ∧ (status_code out.1 ≠ HTTP_201_CREATED -> out.2 = s).
Proof.
  intros out id'. subst out id'. rewrite review_create_unfold.
  split; [|split].
  - intros d' p r c -> Hp Hr Hc.
    by rewrite (Review_objects_create_fields d' i p r c).
  - destruct (review_validation None false d) as [d'|]; [|discriminate].
    destruct (Review_objects_create _) as [row|] eqn:E; [|discriminate].
    intros _. exists row. split; [|done].
    by apply (Review_objects_create_user d').
  - destruct (review_validation None false d) as [d'|]; [|done].
    by destruct (Review_objects_create _).
Qed.

(** C9: for a stored review and every authenticated actor, author or
    not, staff or not, update, partial update and delete are permitted:
    the queryset of the view is the whole review table, the object-level
    check grants, the updates go on to validation and saving and the
    delete removes the review and answers 204. *)
Theorem review_update_delete_any_authenticated (s : Store) (i k : pk)
    (staff : bool) (r : Review) (q : QueryParams) (d : Fields) (a : Action) :
  reviews s !! k = Some r ->
  let u := AuthenticatedUser i staff in
  get_queryset reviews_view (initialize_request a u q d) s = Ok (reviews s)
  ∧ check_object_permissions reviews_view a (initialize_request a u q d) r
    = Ok tt
  ∧ call reviews_view act_update u q d k s
    = handle_exception s
        (apply_update reviews_view false
           (initialize_request act_update u q d) k r s)
  ∧ call reviews_view act_partial_update u q d k s
    = handle_exception s
        (apply_update reviews_view true
           (initialize_request act_partial_update u q d) k r s)
  ∧ (call reviews_view act_update u q d k s).1.(status_code)
    ≠ HTTP_403_FORBIDDEN
  ∧ call reviews_view act_destroy u q d k s
    = (mkResponse HTTP_204_NO_CONTENT NoData,
       set_objects reviews_view (delete k (reviews s)) s).
Proof.
  intros E u. subst u.
  assert (forall a' partial,
            (a' = act_update ∧ partial = false)
            ∨ (a' = act_partial_update ∧ partial = true) ->
            call reviews_view a' (AuthenticatedUser i staff) q d k s
            = handle_exception s
                (apply_update reviews_view partial
                   (initialize_request a' (AuthenticatedUser i staff) q d)
                   k r s)) as Hu.
  { intros a' partial [[-> ->] | [-> ->]];
      unfold call, dispatch, check_permissions, handler, get_object;
      cbn; unfold ReviewViewSet.queryset; by rewrite E. }
  repeat split.
  - by apply Hu; left.
  - by apply Hu; right.
  - rewrite (Hu act_update false) by (by left).
    pose proof (apply_update_status reviews_view false
                  (initialize_request act_update (AuthenticatedUser i staff) q d)
                  k r s) as H.
    intros Hs. rewrite Hs in H.
    apply list_elem_of_In in H. cbn in H.
    unfold HTTP_403_FORBIDDEN, HTTP_200_OK, HTTP_400_BAD_REQUEST,
      HTTP_500_INTERNAL_SERVER_ERROR in H. lia.
  - unfold call, dispatch, check_permissions, handler, get_object.
    cbn. unfold ReviewViewSet.queryset. by rewrite E.
Qed.

(** *** Creation by anonymous actors *)

(** An anonymous actor passes the permission check of user creation,
    and a payload that validates is stored and answered 201. Creating a
    product or an order is refused and stores nothing, and the answer is
    401, both views naming the token authentication; creating a review
    is refused with the status the default authentication classes
    give. *)
Lemma anonymous_create_answers (s : Store) (q : QueryParams) (d : Fields)
    (id : pk) :
  check_permissions users_view act_create
    (initialize_request act_create AnonymousUser q d) = Ok tt
  ∧ (forall d' row,
       run_validation UserSerializer None false d = Some d' ->
       ser_create UserSerializer d' = Some row ->
       call users_view act_create AnonymousUser q d id s
       = (mkResponse HTTP_201_CREATED (Instance (next_pk (users s)) row),
          set_objects users_view (<[ next_pk (users s) := row ]> (users s)) s))
  ∧ call products_view act_create AnonymousUser q d id s
    = (mkResponse HTTP_401_UNAUTHORIZED NoData, s)
  ∧ call orders_view act_create AnonymousUser q d id s
    = (mkResponse HTTP_401_UNAUTHORIZED NoData, s)
  ∧ call reviews_view act_create AnonymousUser q d id s
    = (mkResponse (not_authenticated_status DEFAULT_AUTHENTICATION_CLASSES)
         NoData, s).
Proof.
  split; [reflexivity|]. split; [|by repeat split].
  intros d' row Hv Hc.
  unfold call, dispatch, check_permissions, handler, apply_create, validated.
  cbn. rewrite Hv. cbn.
  unfold default_perform_create, save.
  rewrite (left_id_L ∅ (∪) d'), Hc. reflexivity.
Qed.

(** *** Products and categories *)

(** C7: for every actor, anonymous or not, listing the products and
    listing the categories is answered 200; a plain product listing holds
    the whole product table, the queryset of the product view is that
    table for every request, and two actors sending the same listing
    request get the same answer. *)
Theorem list_products_categories_public (s : Store) (u u' : RequestUser)
    (q : QueryParams) (d : Fields) (id : pk) :
  call products_view act_list u no_query d id s
  = (mkResponse HTTP_200_OK (Collection (products s)), s)
  ∧ call categories_view act_list u q d id s
    = (mkResponse HTTP_200_OK (Collection (categories s)), s)
  ∧ get_queryset products_view (initialize_request act_list u q d) s
    = Ok (products s)
  ∧ call products_view act_list u q d id s
    = call products_view act_list u' q d id s.
Proof. repeat split. Qed.

(** The rows a price range keeps. *)
Lemma price_range_lookup (lo hi : Qc) (qs : QuerySet Product) (k : pk)
    (p : Product) :
  ProductFilter.max_price (Some hi) (ProductFilter.min_price (Some lo) qs) !! k
  = Some p
  ↔ qs !! k = Some p ∧ (lo ≤ price p)%Qc ∧ (price p ≤ hi)%Qc.
Proof.
  unfold ProductFilter.max_price, ProductFilter.min_price,
    ProductFilter.NumberFilter.
  rewrite !map_lookup_filter_Some. cbn.
  rewrite !bool_decide_eq_true.
  split; [intros [[Hk Hlo] Hhi] | intros (Hk & Hlo & Hhi)]; by repeat split.
Qed.

(** The rows the stock filter keeps: those whose stock is above the
    integer the boolean counts as. *)
Lemma in_stock_lookup (b : bool) (qs : QuerySet Product) (k : pk)
    (p : Product) :
  ProductFilter.in_stock (Some b) qs !! k = Some p
  ↔ qs !! k = Some p ∧ Z.b2z b < stock_quantity p.
Proof.
  unfold ProductFilter.in_stock, ProductFilter.BooleanFilter.
  rewrite map_lookup_filter_Some. cbn.
  by rewrite bool_decide_eq_true.
Qed.

(** A product listing with [min_price] and [max_price] and no other
    filter holds exactly the stored products priced within the range. *)
Lemma list_products_price_range (s : Store) (u : RequestUser) (lo hi : Qc)
    (d : Fields) (id : pk) :
  exists qs,
    call products_view act_list u (mkQuery None (Some lo) (Some hi) None) d id s
    = (mkResponse HTTP_200_OK (Collection qs), s)
    ∧ forall k p,
        qs !! k = Some p
        ↔ products s !! k = Some p ∧ (lo ≤ price p)%Qc ∧ (price p ≤ hi)%Qc.
Proof.
  eexists. split.
  - destruct u; reflexivity.
  - intros k p. cbn. apply price_range_lookup.
Qed.

(** A product listing with [in_stock=true] and no other filter holds
    exactly the stored products whose stock is above 1. *)
Lemma list_products_in_stock (s : Store) (u : RequestUser) (d : Fields)
    (id : pk) :
  exists qs,
    call products_view act_list u (mkQuery None None None (Some true)) d id s
    = (mkResponse HTTP_200_OK (Collection qs), s)
    ∧ forall k p,
        qs !! k = Some p ↔ products s !! k = Some p ∧ 1 < stock_quantity p.
Proof.
  eexists. split.
  - destruct u; reflexivity.
  - intros k p. cbn. apply (in_stock_lookup true).
Qed.

(** *** Users *)

(** C8: for an authenticated actor the queryset of the user view is the
    whole user table when the actor is staff; when the actor is not
    staff it holds the row stored under the actor's own id and nothing
    else. *)
Theorem user_visible_set (s : Store) (i : pk) (staff : bool) (m : string)
    (q : QueryParams) (d : Fields) :
  let request := mkRequest m (AuthenticatedUser i staff) q d in
  (staff = true -> UserViewSet.get_queryset request s = Ok (users s))
  ∧ (staff = false ->
     exists qs,
       UserViewSet.get_queryset request s = Ok qs
       ∧ (forall k row, qs !! k = Some row ↔ k = i ∧ users s !! k = Some row)
       ∧ (forall me, users s !! i = Some me -> qs = {[ i := me ]})).
Proof.
  intros request. subst request. split; intros ->; [reflexivity|].
  eexists. split; [reflexivity|].
  assert (forall k row,
            filter (fun row : pk * User => Some row.1 = Some i) (users s) !! k
            = Some row ↔ k = i ∧ users s !! k = Some row) as H.
  { intros k row. rewrite map_lookup_filter_Some. cbn.
    split; [intros [? [= ->]] | intros [-> ?]]; by split. }
  split; [exact H|].
  intros me Hme. apply map_eq. intros k.
  destruct (decide (k = i)) as [->|Hk].
  - rewrite lookup_singleton_eq. by apply H.
  - rewrite lookup_singleton_ne by done.
    apply eq_None_not_Some. intros [row Hrow].
    apply H in Hrow as [? _]. done.
Qed.

End Views.

(** ** The views at the sample data *)

Abbreviation sample_orders := (OrderViewSet.view Sample.OrderSerializer).
Abbreviation sample_products :=
  (ProductViewSet.view Sample.ProductSerializer Sample.Product_delete).
Abbreviation sample_users :=
  (UserViewSet.view Sample.UserSerializer Sample.User_delete).
Abbreviation sample_reviews :=
  (ReviewViewSet.view (ReviewSerializer Sample.review_validation)
     Sample.DEFAULT_AUTHENTICATION_CLASSES).

(** C1 (where the code departs from it): the staff user [admin]
    retrieves the stored order 7, which belongs to another user, and is
    answered 403 with no data: the queryset of a staff user holds the
    order, but the object-level check grants GET to the owner only. *)
Theorem staff_retrieve_foreign_order_forbidden :
  user_is_staff Sample.admin = true
  ∧ orders Sample.store !! 7 = Some Sample.alice_order
  ∧ same_user (order_user Sample.alice_order) Sample.admin = false
  ∧ get_queryset sample_orders
      (initialize_request act_retrieve Sample.admin no_query ∅) Sample.store
    = Ok (orders Sample.store)
  ∧ call sample_orders act_retrieve Sample.admin no_query ∅ 7 Sample.store
    = (mkResponse HTTP_403_FORBIDDEN NoData, Sample.store).
Proof.
  repeat (split; [reflexivity|]).
  by rewrite (order_retrieve_staff Sample.OrderSerializer Sample.store 1 7
                Sample.alice_order).
Qed.

(** C2 fails as stated: [alice] is not staff and owns the stored order
    7, and both her update and her delete of it are answered 403, the
    order staying in the store. *)
Lemma owner_update_delete_forbidden :
  orders Sample.store !! 7 = Some Sample.alice_order
  ∧ same_user (order_user Sample.alice_order) Sample.alice = true
  ∧ call sample_orders act_update Sample.alice no_query ∅ 7 Sample.store
    = (mkResponse HTTP_403_FORBIDDEN NoData, Sample.store)
  ∧ call sample_orders act_destroy Sample.alice no_query ∅ 7 Sample.store
    = (mkResponse HTTP_403_FORBIDDEN NoData, Sample.store).
Proof. repeat split. Qed.

Lemma order_update_delete_staff_only_witness :
  orders Sample.store !! 7 = Some Sample.alice_order
  ∧ call sample_orders act_destroy Sample.admin no_query ∅ 7 Sample.store
    = (mkResponse HTTP_204_NO_CONTENT NoData,
       set_objects sample_orders (delete 7 (orders Sample.store)) Sample.store)
  ∧ call sample_orders act_update Sample.bob no_query ∅ 7 Sample.store
    = (mkResponse HTTP_403_FORBIDDEN NoData, Sample.store).
Proof.
  split; [reflexivity|]. split.
  - destruct (order_update_delete_staff_only Sample.OrderSerializer
                Sample.store 1 7 true Sample.alice_order no_query ∅ eq_refl)
      as [_ H].
    destruct (H eq_refl) as (_ & _ & Hd). exact Hd.
  - destruct (order_update_delete_staff_only Sample.OrderSerializer
                Sample.store 3 7 false Sample.alice_order no_query ∅ eq_refl)
      as [H _].
    destruct (H eq_refl) as [Hu _]. exact Hu.
Defined.

(** C3 (where the code departs from it): the product [nail] has a stock
    of 1, and a listing with [in_stock=true] leaves it out; of the three
    sample products only [drill], with a stock of 5, is listed. *)
Theorem in_stock_true_drops_stock_of_one :
  products Sample.store !! 1 = Some Sample.nail
  ∧ 0 < stock_quantity Sample.nail
  ∧ call sample_products act_list AnonymousUser
      (mkQuery None None None (Some true)) ∅ 0 Sample.store
    = (mkResponse HTTP_200_OK (Collection {[ 3 := Sample.drill ]}),
       Sample.store).
Proof.
  split; [reflexivity|]. split; [reflexivity|].
  vm_compute. reflexivity.
Qed.

(** The price range at the sample data: [nail] (10.99) and [saw] (15)
    lie within 10 and 20, [drill] (25) does not. *)
Example price_range_sample :
  call sample_products act_list AnonymousUser
    (mkQuery None (Some (Sample.decimal 10 1)) (Some (Sample.decimal 20 1)) None)
    ∅ 0 Sample.store
  = (mkResponse HTTP_200_OK
       (Collection (<[ 1 := Sample.nail ]> {[ 2 := Sample.saw ]})),
     Sample.store).
Proof. vm_compute. reflexivity. Qed.

Lemma nonstaff_retrieve_order_witness :
  orders Sample.store !! 7 = Some Sample.alice_order
  ∧ (call sample_orders act_retrieve Sample.bob no_query ∅ 7 Sample.store
     = (mkResponse HTTP_404_NOT_FOUND NoData, Sample.store))
  ∧ (call sample_orders act_retrieve Sample.alice no_query ∅ 7 Sample.store
     = (mkResponse HTTP_200_OK (Instance 7 Sample.alice_order), Sample.store)).
Proof.
  split; [reflexivity|].
  split.
  - apply (nonstaff_retrieve_order Sample.OrderSerializer Sample.store 3 7
             Sample.alice_order no_query ∅); [reflexivity | discriminate].
  - apply (nonstaff_retrieve_order Sample.OrderSerializer Sample.store 2 7
             Sample.alice_order no_query ∅); reflexivity.
Defined.

Lemma review_author_is_actor_witness :
  Sample.review_payload !! "user" = Some (VRef 2)
  ∧ call sample_reviews act_create Sample.bob no_query Sample.review_payload
      0 Sample.store
    = (mkResponse HTTP_201_CREATED
         (Instance (next_pk (reviews Sample.store)) (mkReview 1 3 4 "fine")),
       set_objects sample_reviews
         (<[ next_pk (reviews Sample.store) := mkReview 1 3 4 "fine" ]>
            (reviews Sample.store)) Sample.store).
Proof.
  split; [reflexivity|].
  destruct (review_author_is_actor Sample.review_validation
              Sample.DEFAULT_AUTHENTICATION_CLASSES Sample.store 3
              false no_query Sample.review_payload 0) as [H _].
  apply (H Sample.review_payload 1 4 "fine"); reflexivity.
Defined.

(** C6 (where the code departs from it): an anonymous actor creates a
    user from a payload that validates and is answered 201, as claimed;
    but the anonymous create of a product and of an order, which
    [tests.py] expects to be answered 403, is answered 401 with no data,
    both views naming the token authentication, whose challenge makes a
    refused unauthenticated request a 401. *)
Theorem anonymous_create_product_order_unauthorized :
  ProductViewSet.authentication_classes = [JWTAuthentication]
  ∧ OrderViewSet.authentication_classes = [JWTAuthentication]
  ∧ call sample_products act_create AnonymousUser no_query ∅ 0 Sample.store
    = (mkResponse HTTP_401_UNAUTHORIZED NoData, Sample.store)
  ∧ call sample_orders act_create AnonymousUser no_query Sample.order_payload
      0 Sample.store
    = (mkResponse HTTP_401_UNAUTHORIZED NoData, Sample.store)
  ∧ call sample_users act_create AnonymousUser no_query Sample.user_payload
      0 Sample.store
    = (mkResponse HTTP_201_CREATED
         (Instance (next_pk (users Sample.store)) (mkUser "carol" false)),
       set_objects sample_users
         (<[ next_pk (users Sample.store) := mkUser "carol" false ]>
            (users Sample.store)) Sample.store).
Proof.
  repeat (split; [reflexivity|]).
  destruct (anonymous_create_answers Sample.UserSerializer
              Sample.ProductSerializer Sample.OrderSerializer
              Sample.review_validation Sample.User_delete
              Sample.Product_delete Sample.DEFAULT_AUTHENTICATION_CLASSES
              Sample.store no_query Sample.user_payload 0) as (_ & H & _).
  apply (H Sample.user_payload (mkUser "carol" false)); reflexivity.
Qed.

Lemma user_visible_set_witness :
  exists qs,
    UserViewSet.get_queryset (mkRequest "GET" Sample.alice no_query ∅)
      Sample.store = Ok qs
    ∧ qs = {[ 2 := mkUser "alice" false ]}.
Proof.
  destruct (user_visible_set Sample.store 2 false "GET" no_query ∅) as [_ H].
  destruct (H eq_refl) as (qs & Hq & _ & Hme).
  exists qs. split; [exact Hq|].
  apply Hme. reflexivity.
Defined.

Lemma review_update_delete_any_authenticated_witness :
  reviews Sample.store !! 4 = Some Sample.alice_review
  ∧ same_user (review_user Sample.alice_review) Sample.bob = false
  ∧ call sample_reviews act_destroy Sample.bob no_query ∅ 4 Sample.store
    = (mkResponse HTTP_204_NO_CONTENT NoData,
       set_objects sample_reviews (delete 4 (reviews Sample.store))
         Sample.store).
Proof.
  split; [reflexivity|]. split; [reflexivity|].
  apply (review_update_delete_any_authenticated Sample.review_validation
           Sample.DEFAULT_AUTHENTICATION_CLASSES
           Sample.store 3 4 false Sample.alice_review no_query ∅ act_destroy
           eq_refl).
Defined.

Lemma order_patch_denied_witness :
  orders Sample.store !! 7 = Some Sample.alice_order
  ∧ call sample_orders act_partial_update Sample.admin no_query ∅ 7
      Sample.store
    = (mkResponse HTTP_403_FORBIDDEN NoData, Sample.store).
Proof.
  split; [reflexivity|].
  apply (order_patch_denied Sample.OrderSerializer Sample.store Sample.admin 7
           Sample.alice_order no_query ∅ "PATCH" eq_refl).
Defined.

(** ** Further properties of the views *)

(** The next primary key lies above every key of the table, so it is
    not taken. *)
Lemma next_pk_above {A} (table : QuerySet A) (k : pk) :
  is_Some (table !! k) -> k < next_pk table.
Proof.
  unfold next_pk.
  enough (forall k, is_Some (table !! k) ->
            k ≤ map_fold (fun k _ acc => Z.max k acc) 0 table) as H.
  { intros Hk. apply H in Hk. lia. }
  clear k.
  apply (map_fold_weak_ind
           (fun r m => forall k : Z, is_Some (m !! k) -> k ≤ r)).
  - intros k [x Hx]. by rewrite lookup_empty in Hx.
  - intros i x m r _ IH k Hk.
    destruct (decide (k = i)) as [->|Hne]; [lia|].
    rewrite lookup_insert_ne in Hk by done. apply IH in Hk. lia.
Qed.

Lemma next_pk_fresh {A} (table : QuerySet A) :
  table !! next_pk table = None.
Proof.
  apply eq_None_not_Some. intros H.
  apply next_pk_above in H. lia.
Qed.

(** Equivalences between a filtered lookup and its side conditions. *)
Ltac iff_solver :=
  repeat match goal with
         | H : pk -> Store -> Result Store |- _ => clear H
         end;
  intuition (simplify_eq; eauto; congruence).

Section Coverage.

Context (UserSerializer : Serializer User)
        (ProductSerializer : Serializer Product)
        (OrderSerializer : Serializer Order)
        (CategorySirializers : Serializer Category)
        (review_validation : option Review -> bool -> Fields -> option Fields)
        (User_delete Product_delete Category_delete
           : pk -> Store -> Result Store)
        (DEFAULT_AUTHENTICATION_CLASSES : list Authentication).

Local Abbreviation users_view := (UserViewSet.view UserSerializer User_delete).
Local Abbreviation products_view :=
  (ProductViewSet.view ProductSerializer Product_delete).
Local Abbreviation orders_view := (OrderViewSet.view OrderSerializer).
Local Abbreviation categories_view :=
  (CategoryViewSet.view CategorySirializers Category_delete).
Local Abbreviation reviews_view :=
  (ReviewViewSet.view (ReviewSerializer review_validation)
     DEFAULT_AUTHENTICATION_CLASSES).

(** *** Anonymous actors *)

(** X1: an anonymous actor is refused, with no data and the store
    unchanged, on every action of the user view other than create, on
    every action of the order and review views, and on every writing
    action of the product and category views. The answer is 401 on the
    user, order, product and category views, which name the token
    authentication, and on the review view it is the status the default
    authentication classes give. *)
Theorem anonymous_refused (s : Store) (a : Action) (q : QueryParams)
    (d : Fields) (id : pk) :
  (a ≠ act_create ->
   call users_view a AnonymousUser q d id s
   = (mkResponse HTTP_401_UNAUTHORIZED NoData, s))
  ∧ call orders_view a AnonymousUser q d id s
    = (mkResponse HTTP_401_UNAUTHORIZED NoData, s)
  ∧ call reviews_view a AnonymousUser q d id s
    = (mkResponse (not_authenticated_status DEFAULT_AUTHENTICATION_CLASSES)
         NoData, s)
  ∧ (a ≠ act_list -> a ≠ act_retrieve ->
     call products_view a AnonymousUser q d id s
     = (mkResponse HTTP_401_UNAUTHORIZED NoData, s)
     ∧ call categories_view a AnonymousUser q d id s
       = (mkResponse HTTP_401_UNAUTHORIZED NoData, s)).
Proof.
  split; [|split; [|split]].
  - intros Ha. by destruct a.
  - by destruct a.
  - by destruct a.
  - intros Hl Hr. by destruct a.
Qed.

(** *** Users *)

(** The user rows a non-staff user can look up. *)
Lemma own_user_lookup (s : Store) (i k : pk) :
  filter (fun row : pk * User => Some row.1 = Some i) (users s) !! k
  = if bool_decide (k = i) then users s !! k else None.
Proof.
  case_bool_decide as Hk.
  - subst k. destruct (users s !! i) as [me|] eqn:E.
    + apply map_lookup_filter_Some. by split.
    + apply map_lookup_filter_None. by left.
  - apply map_lookup_filter_None. right. intros row _ [= Heq]. done.
Qed.

(** X2: a non-staff user who addresses the record of another user id,
    to retrieve, update, partially update or delete it, is answered 404
    with no data, whether or not such a record is stored, and the store
    is unchanged. *)
Theorem user_record_isolation (s : Store) (i k : pk) (a : Action)
    (q : QueryParams) (d : Fields) :
  k ≠ i -> a ≠ act_list -> a ≠ act_create ->
  call users_view a (AuthenticatedUser i false) q d k s
  = (mkResponse HTTP_404_NOT_FOUND NoData, s).
Proof.
  intros Hk Hl Hc.
  destruct a; try done;
    unfold call, dispatch, check_permissions, handler, get_object;
    cbn; rewrite own_user_lookup, bool_decide_eq_false_2 by done;
    reflexivity.
Qed.

(** X3: a stored user record is retrieved (200, with the record) by the
    user it belongs to and by every staff user, and their delete of it
    passes the permission checks and the lookup: once the model layer
    has dealt with the rows that refer to the user, the answer is 204
    and the user table of the resulting store has no row under the key;
    if the model layer refuses, its error is the answer and the store is
    unchanged. *)
Theorem user_record_access (s : Store) (i k : pk) (staff : bool) (row : User)
    (q : QueryParams) (d : Fields) :
  users s !! k = Some row ->
  staff = true ∨ k = i ->
  let out := call users_view act_destroy (AuthenticatedUser i staff) q d k s in
  call users_view act_retrieve (AuthenticatedUser i staff) q d k s
  = (mkResponse HTTP_200_OK (Instance k row), s)
  ∧ (forall s1, User_delete k s = Ok s1 ->
       out = (mkResponse HTTP_204_NO_CONTENT NoData,
              set_objects users_view (delete k (users s1)) s1)
       ∧ users out.2 !! k = None)
  ∧ (forall status, User_delete k s = Raise status ->
       out = (mkResponse status NoData, s)).
Proof.
  intros E H out.
  assert (get_object users_view act_retrieve
            (initialize_request act_retrieve (AuthenticatedUser i staff) q d)
            s k = Ok row
          ∧ get_object users_view act_destroy
              (initialize_request act_destroy (AuthenticatedUser i staff) q d)
              s k = Ok row) as [Hr Hd].
  { unfold get_object. cbn. destruct staff; cbn.
    - by rewrite E.
    - destruct H as [H | ->]; [done|].
      by rewrite own_user_lookup, bool_decide_eq_true_2, E. }
  assert (out = handle_exception s
                  (do s1 <- User_delete k s;
                   Ok (mkResponse HTTP_204_NO_CONTENT NoData,
                       set_objects users_view (delete k (users s1)) s1)))
    as ->.
  { subst out. unfold call, dispatch, check_permissions, handler.
    cbn. by rewrite Hd. }
  split; [|split].
  - unfold call, dispatch, check_permissions, handler. cbn. by rewrite Hr.
  - intros s1 ->. cbn. split; [done|]. apply lookup_delete_eq.
  - by intros status ->.
Qed.

(** *** Orders *)

(** X4: the order listing of an authenticated actor is answered 200 and
    holds every stored order when the actor is staff, and exactly the
    stored orders the actor owns otherwise; the store is unchanged. *)
Theorem order_list_visible (s : Store) (i : pk) (staff : bool)
    (q : QueryParams) (d : Fields) (id : pk) :
  exists qs,
    call orders_view act_list (AuthenticatedUser i staff) q d id s
    = (mkResponse HTTP_200_OK (Collection qs), s)
    ∧ forall k o,
        qs !! k = Some o
        ↔ orders s !! k = Some o ∧ (staff = true ∨ order_user o = i).
Proof.
  destruct staff; eexists; (split; [reflexivity|]); intros k o; cbn.
  - iff_solver.
  - rewrite map_lookup_filter_Some. cbn. iff_solver.
Qed.

(** X5: neither gate of the order permission grants the anonymous user,
    whatever the method, and the object-level gate grants only a request
    of the order's owner or of a staff user. *)
Theorem order_gates_sound (request : Request) (o : Order) :
  (IsAdminOrReadOnly.has_permission request = true ->
   is_authenticated (user request) = true)
  ∧ (IsAdminOrReadOnly.has_object_permission request o = true ->
     is_authenticated (user request) = true
     ∧ (same_user (order_user o) (user request) = true
        ∨ user_is_staff (user request) = true)).
Proof.
  unfold IsAdminOrReadOnly.has_permission,
    IsAdminOrReadOnly.has_object_permission.
  destruct (user request) as [|i staff]; cbn.
  - split.
    + by case_bool_decide.
    + rewrite andb_false_r. by case_bool_decide.
  - split; [done|]. intros H. split; [done|].
    destruct (bool_decide (order_user o = i)); [by left|].
    rewrite andb_false_r in H.
    case_bool_decide; [|done].
    destruct staff; [by right | done].
Qed.

(** X6: unless the action is create, or the actor is staff and the
    action is update or delete, a request to the order view leaves the
    store as it was, whatever the key and the payload. *)
Theorem order_store_guard (s : Store) (u : RequestUser) (a : Action)
    (q : QueryParams) (d : Fields) (id : pk) :
  a ≠ act_create ->
  (user_is_staff u = true -> a ≠ act_update ∧ a ≠ act_destroy) ->
  (call orders_view a u q d id s).2 = s.
Proof.
  intros Hc Hs.
  destruct u as [|i [|]].
  - by destruct a.
  - destruct (Hs eq_refl) as [Hu Hd].
    destruct a; try done;
      unfold call, dispatch, check_permissions, handler, get_object; cbn;
      (destruct (orders s !! id) as [o|]; [|done]); cbn;
      unfold check_object_permissions; cbn;
      unfold IsAdminOrReadOnly.has_object_permission; cbn;
      by destruct (bool_decide (order_user o = i)).
  - destruct a; try done.
    unfold call, dispatch, check_permissions, handler, get_object. cbn.
    rewrite orders_of_user_lookup.
    destruct (orders s !! id) as [o|]; [|done].
    destruct (order_owner_cases o i) as [[_ Hb]|[_ Hb]]; rewrite Hb; [|done].
    unfold check_object_permissions. cbn.
    unfold IsAdminOrReadOnly.has_object_permission. cbn.
    by rewrite Hb.
Qed.

(** The rows of an order table one user owns. *)
Lemma owned_orders_lookup (table : QuerySet Order) (i k : pk) :
  filter (fun row : pk * Order => order_user row.2 = i) table !! k
  = match table !! k with
    | Some o => if bool_decide (order_user o = i) then Some o else None
    | None => None
    end.
Proof.
  apply (orders_of_user_lookup
           (mkStore ∅ ∅ ∅ table ∅) i k).
Qed.

(** X14: every authenticated actor, staff or not, may create an order:
    a payload the serializer accepts and persists is answered 201 and
    stored under a key no order had, the orders stored before staying
    as they were. The owner of the new order is the one the serializer
    made of the payload: a non-staff creator retrieves the order
    afterwards (200) when that owner is the creator, and is answered
    404 when it is another user. *)
Theorem order_create_then_retrieve (s : Store) (i : pk) (staff : bool)
    (q q' : QueryParams) (d d' e : Fields) (id : pk) (row : Order) :
  run_validation OrderSerializer None false d = Some d' ->
  ser_create OrderSerializer d' = Some row ->
  let out := call orders_view act_create (AuthenticatedUser i staff) q d id s in
  let id' := next_pk (orders s) in
  out = (mkResponse HTTP_201_CREATED (Instance id' row),
         set_objects orders_view (<[ id' := row ]> (orders s)) s)
  ∧ orders s !! id' = None
  ∧ (forall k o, orders s !! k = Some o -> orders out.2 !! k = Some o)
  ∧ call orders_view act_retrieve (AuthenticatedUser i false) q' e id' out.2
    = if bool_decide (order_user row = i)
      then (mkResponse HTTP_200_OK (Instance id' row), out.2)
      else (mkResponse HTTP_404_NOT_FOUND NoData, out.2).
Proof.
  intros Hv Hc out id'.
  assert (out = (mkResponse HTTP_201_CREATED (Instance id' row),
                 set_objects orders_view (<[ id' := row ]> (orders s)) s))
    as ->.
  { subst out id'.
    unfold call, dispatch, check_permissions, handler, apply_create,
      validated.
    cbn. rewrite Hv. cbn.
    unfold default_perform_create, save.
    by rewrite (left_id_L ∅ (∪) d'), Hc. }
  split; [done|]. split; [apply next_pk_fresh|]. cbn. split.
  - intros k o Hk. rewrite lookup_insert_ne; [done|].
    intros <-. subst id'. by rewrite next_pk_fresh in Hk.
  - unfold call, dispatch, check_permissions, handler, get_object. cbn.
    rewrite owned_orders_lookup, lookup_insert_eq.
    destruct (order_owner_cases row i) as [[_ Hb]|[_ Hb]]; rewrite Hb; [|done].
    unfold check_object_permissions. cbn.
    unfold IsAdminOrReadOnly.has_object_permission. cbn.
    by rewrite Hb.
Qed.

(** X15: once a staff user has deleted a stored order, a retrieve of its
    key is answered 404 for every authenticated actor, the former owner
    included, and every other order is still stored as it was. *)
Theorem order_destroy_then_retrieve (s : Store) (i j k : pk)
    (staff' : bool) (o : Order) (q q' : QueryParams) (d e : Fields) :
  orders s !! k = Some o ->
  let s' := (call orders_view act_destroy (AuthenticatedUser i true) q d k s).2 in
  call orders_view act_retrieve (AuthenticatedUser j staff') q' e k s'
  = (mkResponse HTTP_404_NOT_FOUND NoData, s')
  ∧ orders s' !! k = None
  ∧ (forall k' o', k' ≠ k -> orders s !! k' = Some o' ->
       orders s' !! k' = Some o').
Proof.
  intros E s'.
  assert (s' = set_objects orders_view (delete k (orders s)) s) as ->.
  { subst s'.
    unfold call, dispatch, check_permissions, handler, get_object.
    cbn. by rewrite E. }
  cbn. split; [|split].
  - destruct staff';
      unfold call, dispatch, check_permissions, handler, get_object; cbn;
      rewrite ?owned_orders_lookup;
      by rewrite lookup_delete_eq.
  - apply lookup_delete_eq.
  - intros k' o' Hne Hk'. by rewrite lookup_delete_ne.
Qed.

(** *** The product filter *)

Lemma NumberFilter_lookup (field : Product -> Qc)
    (l : ProductFilter.lookup_expr) (value : option Qc)
    (qs : QuerySet Product) (k : pk) (p : Product) :
  ProductFilter.NumberFilter field l value qs !! k = Some p
  ↔ qs !! k = Some p
    ∧ forall v, value = Some v -> ProductFilter.lookup_Qc l (field p) v = true.
Proof.
  destruct value as [v|]; cbn.
  - rewrite map_lookup_filter_Some. cbn. iff_solver.
  - iff_solver.
Qed.

Lemma BooleanFilter_lookup (field : Product -> Z)
    (l : ProductFilter.lookup_expr) (value : option bool)
    (qs : QuerySet Product) (k : pk) (p : Product) :
  ProductFilter.BooleanFilter field l value qs !! k = Some p
  ↔ qs !! k = Some p
    ∧ forall b, value = Some b ->
        ProductFilter.lookup_Z l (field p) (Z.b2z b) = true.
Proof.
  destruct value as [b|]; cbn.
  - rewrite map_lookup_filter_Some. cbn. iff_solver.
  - iff_solver.
Qed.

(** X7: when the category parameter is absent or names a stored
    category, the filter set answers with the rows of the queryset that
    meet every parameter that is present, and only with rows of the
    queryset: the category is the one asked for, the price is at least
    [min_price] and at most [max_price], and the stock is above the
    integer the [in_stock] boolean counts as. *)
Theorem product_filter_conjunction (request : Request) (s : Store)
    (qs : QuerySet Product) :
  let q := query_params request in
  (forall c, q_category q = Some c -> is_Some (categories s !! c)) ->
  exists qs',
    ProductFilter.filter_queryset request s qs = Ok qs'
    ∧ forall k p,
        qs' !! k = Some p
        ↔ qs !! k = Some p
          ∧ (forall c, q_category q = Some c -> category p = Some c)
          ∧ (forall lo, q_min_price q = Some lo -> (lo ≤ price p)%Qc)
          ∧ (forall hi, q_max_price q = Some hi -> (price p ≤ hi)%Qc)
          ∧ (forall b, q_in_stock q = Some b -> Z.b2z b < stock_quantity p).
Proof.
  intros q Hc. subst q. unfold ProductFilter.filter_queryset.
  assert (exists qs0,
            ProductFilter.category s (q_category (query_params request)) qs
            = Ok qs0
            ∧ forall k p,
                qs0 !! k = Some p
                ↔ qs !! k = Some p
                  ∧ (forall c, q_category (query_params request) = Some c ->
                       category p = Some c)) as (qs0 & -> & H0).
  { unfold ProductFilter.category, ProductFilter.ModelChoiceFilter.
    destruct (q_category (query_params request)) as [c|].
    - rewrite bool_decide_eq_true_2 by (by apply Hc).
      eexists. split; [reflexivity|]. intros k p.
      rewrite map_lookup_filter_Some. cbn. iff_solver.
    - eexists. split; [reflexivity|]. iff_solver. }
  eexists. split; [reflexivity|]. intros k p.
  unfold ProductFilter.in_stock, ProductFilter.max_price,
    ProductFilter.min_price.
  rewrite BooleanFilter_lookup, !NumberFilter_lookup, H0. cbn.
  setoid_rewrite bool_decide_eq_true. iff_solver.
Qed.

(** X8: a category parameter that names no stored category is refused:
    the filter set raises 400 whatever the other parameters are, and the
    product listing is answered 400 with no data. *)
Theorem product_filter_unknown_category (request : Request) (s : Store)
    (qs : QuerySet Product) (c : pk) (u : RequestUser) (d : Fields)
    (id : pk) :
  q_category (query_params request) = Some c ->
  categories s !! c = None ->
  ProductFilter.filter_queryset request s qs = Raise HTTP_400_BAD_REQUEST
  ∧ call products_view act_list u (query_params request) d id s
    = (mkResponse HTTP_400_BAD_REQUEST NoData, s).
Proof.
  intros Hq Hc.
  assert (bool_decide (is_Some (categories s !! c)) = false) as Hb.
  { apply bool_decide_eq_false_2. rewrite Hc. by intros [x Hx]. }
  split.
  - unfold ProductFilter.filter_queryset, ProductFilter.category,
      ProductFilter.ModelChoiceFilter.
    by rewrite Hq, Hb.
  - unfold call, dispatch, check_permissions, handler. cbn.
    unfold ProductFilter.filter_queryset, ProductFilter.category,
      ProductFilter.ModelChoiceFilter. cbn.
    by rewrite Hq, Hb.
Qed.

(** X9: a price range whose upper bound lies below its lower bound
    lists no product. *)
Theorem product_filter_empty_range (s : Store) (u : RequestUser)
    (lo hi : Qc) (d : Fields) (id : pk) :
  (hi < lo)%Qc ->
  call products_view act_list u (mkQuery None (Some lo) (Some hi) None) d id s
  = (mkResponse HTTP_200_OK (Collection ∅), s).
Proof.
  intros Hlt.
  assert (ProductFilter.max_price (Some hi)
            (ProductFilter.min_price (Some lo) (products s)) = ∅) as He.
  { apply map_empty. intros k.
    apply eq_None_not_Some. intros [p Hp].
    apply price_range_lookup in Hp as (_ & Hlo & Hhi).
    apply (Qclt_not_le _ _ Hlt). by apply (Qcle_trans _ (price p)). }
  rewrite <- He. by destruct u.
Qed.

(** X10: a listing with [in_stock=false] holds exactly the stored
    products whose stock is above 0, and every product a listing with
    [in_stock=true] holds is among them. *)
Theorem product_filter_in_stock_false (s : Store) (u : RequestUser)
    (d : Fields) (id : pk) :
  exists qs_false qs_true,
    call products_view act_list u (mkQuery None None None (Some false)) d id s
    = (mkResponse HTTP_200_OK (Collection qs_false), s)
    ∧ call products_view act_list u (mkQuery None None None (Some true)) d id s
      = (mkResponse HTTP_200_OK (Collection qs_true), s)
    ∧ (forall k p,
         qs_false !! k = Some p
         ↔ products s !! k = Some p ∧ 0 < stock_quantity p)
    ∧ qs_true ⊆ qs_false.
Proof.
  do 2 eexists. split; [by destruct u|]. split; [by destruct u|]. cbn.
  split.
  - intros k p. apply (in_stock_lookup false).
  - apply map_subseteq_spec. intros k p Hp.
    apply (in_stock_lookup true) in Hp as [Hp Hs].
    apply (in_stock_lookup false). split; [done|]. cbn in *. lia.
Qed.

(** *** Products and categories *)

(** X11: a stored product is retrieved by every actor, the anonymous
    one included (200, with the product), and its delete by an
    authenticated actor, staff or not, passes the permission checks and
    the lookup: once the model layer has dealt with the rows that refer
    to the product, the answer is 204 and the product table of the
    resulting store has no row under the key. The same holds of a
    stored category. *)
Theorem catalog_read_public_write_authenticated (s : Store)
    (u : RequestUser) (i k : pk) (staff : bool) (d : Fields) :
  (forall p, products s !! k = Some p ->
     call products_view act_retrieve u no_query d k s
     = (mkResponse HTTP_200_OK (Instance k p), s)
     ∧ forall s1, Product_delete k s = Ok s1 ->
         let out :=
           call products_view act_destroy (AuthenticatedUser i staff)
             no_query d k s in
         out = (mkResponse HTTP_204_NO_CONTENT NoData,
                set_objects products_view (delete k (products s1)) s1)
         ∧ products out.2 !! k = None)
  ∧ (forall c, categories s !! k = Some c ->
       call categories_view act_retrieve u no_query d k s
       = (mkResponse HTTP_200_OK (Instance k c), s)
       ∧ forall s1, Category_delete k s = Ok s1 ->
           let out :=
             call categories_view act_destroy (AuthenticatedUser i staff)
               no_query d k s in
           out = (mkResponse HTTP_204_NO_CONTENT NoData,
                  set_objects categories_view (delete k (categories s1)) s1)
           ∧ categories out.2 !! k = None).
Proof.
  split; intros x E; split.
  - destruct u;
      unfold call, dispatch, check_permissions, handler, get_object;
      cbn; by rewrite E.
  - intros s1 H1 out. subst out.
    unfold call, dispatch, check_permissions, handler, get_object.
    cbn. rewrite E. cbn. rewrite H1. cbn.
    split; [done|]. apply lookup_delete_eq.
  - destruct u;
      unfold call, dispatch, check_permissions, handler, get_object;
      cbn; by rewrite E.
  - intros s1 H1 out. subst out.
    unfold call, dispatch, check_permissions, handler, get_object.
    cbn. rewrite E. cbn. rewrite H1. cbn.
    split; [done|]. apply lookup_delete_eq.
Qed.

(** *** Reviews *)

(** X12: after an authenticated actor has created a review from a
    validated payload with a product, a rating and a comment, every
    authenticated actor retrieves that review, with the creating actor
    as its author, under the key the creation answered; the reviews
    stored before are still stored as they were; and deleting the new
    review gives back the store from before the creation. *)
Theorem review_create_then_retrieve (s : Store) (i j : pk)
    (staff staff' : bool) (q q' : QueryParams) (d d' e : Fields) (id : pk)
    (p r : Z) (c : string) :
  review_validation None false d = Some d' ->
  d' !! "product" = Some (VRef p) ->
  d' !! "rating" = Some (VInt r) ->
  d' !! "comment" = Some (VStr c) ->
  let s' := (call reviews_view act_create (AuthenticatedUser i staff) q d id s).2 in
  let id' := next_pk (reviews s) in
  call reviews_view act_retrieve (AuthenticatedUser j staff') q' e id' s'
  = (mkResponse HTTP_200_OK (Instance id' (mkReview p i r c)), s')
  ∧ (forall k r0, reviews s !! k = Some r0 -> reviews s' !! k = Some r0)
  ∧ (call reviews_view act_destroy (AuthenticatedUser j staff') q' e id' s').2
    = s.
Proof.
  intros Hv Hp Hr Hc s' id'. subst s' id'.
  rewrite review_create_unfold, Hv,
    (Review_objects_create_fields d' i p r c) by done.
  cbn. split; [|split].
  - unfold call, dispatch, check_permissions, handler, get_object. cbn.
    unfold ReviewViewSet.queryset. cbn.
    by rewrite lookup_insert_eq.
  - intros k r0 Hk. rewrite lookup_insert_ne; [done|].
    intros <-. by rewrite next_pk_fresh in Hk.
  - unfold call, dispatch, check_permissions, handler, get_object. cbn.
    unfold ReviewViewSet.queryset. cbn.
    rewrite lookup_insert_eq. cbn.
    rewrite delete_insert_id by apply next_pk_fresh.
    by destruct s.
Qed.

(** *** Keys that are not stored *)

(** X13: for an authenticated actor a key under which the table holds no
    row is answered 404, with no data and the store unchanged: on
    retrieve in every view, and on update, partial update and delete in
    the user, review, product and category views. *)
Theorem missing_key_not_found (s : Store) (i k : pk) (staff : bool)
    (a : Action) (q : QueryParams) (d : Fields) :
  a ≠ act_list -> a ≠ act_create ->
  let u := AuthenticatedUser i staff in
  (users s !! k = None ->
   call users_view a u q d k s = (mkResponse HTTP_404_NOT_FOUND NoData, s))
  ∧ (reviews s !! k = None ->
     call reviews_view a u q d k s = (mkResponse HTTP_404_NOT_FOUND NoData, s))
  ∧ (products s !! k = None ->
     call products_view a u no_query d k s
     = (mkResponse HTTP_404_NOT_FOUND NoData, s))
  ∧ (categories s !! k = None ->
     call categories_view a u q d k s
     = (mkResponse HTTP_404_NOT_FOUND NoData, s))
  ∧ (orders s !! k = None ->
     call orders_view act_retrieve u q d k s
     = (mkResponse HTTP_404_NOT_FOUND NoData, s)).
Proof.
  intros Hl Hc u. subst u.
  split; [|split; [|split; [|split]]]; intros E.
  - destruct a; try done; destruct staff;
      unfold call, dispatch, check_permissions, handler, get_object; cbn;
      rewrite ?own_user_lookup, ?E; by try case_bool_decide.
  - destruct a; try done;
      unfold call, dispatch, check_permissions, handler, get_object; cbn;
      unfold ReviewViewSet.queryset; by rewrite E.
  - destruct a; try done;
      unfold call, dispatch, check_permissions, handler, get_object; cbn;
      by rewrite E.
  - destruct a; try done;
      unfold call, dispatch, check_permissions, handler, get_object; cbn;
      by rewrite E.
  - destruct staff;
      unfold call, dispatch, check_permissions, handler, get_object; cbn;
      rewrite ?orders_of_user_lookup, E; done.
Qed.

End Coverage.

(** ** The further properties at the sample data *)

Lemma user_record_isolation_witness :
  users Sample.store !! 2 = Some (mkUser "alice" false)
  ∧ call sample_users act_retrieve Sample.bob no_query ∅ 2 Sample.store
    = (mkResponse HTTP_404_NOT_FOUND NoData, Sample.store).
Proof.
  split; [reflexivity|].
  apply (user_record_isolation Sample.UserSerializer Sample.User_delete
           Sample.store 3 2
           act_retrieve no_query ∅); discriminate.
Defined.

Lemma user_record_access_witness :
  call sample_users act_retrieve Sample.alice no_query ∅ 2 Sample.store
  = (mkResponse HTTP_200_OK (Instance 2 (mkUser "alice" false)), Sample.store)
  ∧ (call sample_users act_destroy Sample.alice no_query ∅ 2 Sample.store).1
    = mkResponse HTTP_204_NO_CONTENT NoData
  ∧ users
      (call sample_users act_destroy Sample.alice no_query ∅ 2 Sample.store).2
    !! 2 = None.
Proof.
  destruct (user_record_access Sample.UserSerializer Sample.User_delete
              Sample.store 2 2 false (mkUser "alice" false) no_query ∅
              eq_refl (or_intror eq_refl)) as (Hr & Hd & _).
  split; [exact Hr|].
  destruct (Hd _ eq_refl) as [Hout Hk].
  split; [exact (f_equal fst Hout) | exact Hk].
Defined.

Lemma order_store_guard_witness :
  (call sample_orders act_destroy Sample.alice no_query ∅ 7 Sample.store).2
  = Sample.store.
Proof.
  apply (order_store_guard Sample.OrderSerializer Sample.store Sample.alice
           act_destroy no_query ∅ 7); [discriminate|].
  intros H. discriminate H.
Defined.

Lemma product_filter_conjunction_witness :
  exists qs,
    ProductFilter.filter_queryset
      (mkRequest "GET" AnonymousUser Sample.price_query ∅) Sample.store
      (products Sample.store) = Ok qs
    ∧ qs !! 1 = Some Sample.nail.
Proof.
  destruct (product_filter_conjunction
              (mkRequest "GET" AnonymousUser Sample.price_query ∅)
              Sample.store (products Sample.store)) as (qs & Hq & H).
  - intros c [= <-]. by eexists.
  - exists qs. split; [exact Hq|]. apply H.
    split; [reflexivity|]. split; [by intros c [= <-]|].
    split; [intros lo [= <-]; by vm_compute|].
    split; [intros hi [= <-]; by vm_compute|].
    intros b Hb. discriminate Hb.
Defined.

Lemma product_filter_unknown_category_witness :
  call sample_products act_list AnonymousUser
    (mkQuery (Some 9) None None None) ∅ 0 Sample.store
  = (mkResponse HTTP_400_BAD_REQUEST NoData, Sample.store).
Proof.
  apply (product_filter_unknown_category Sample.ProductSerializer
           Sample.Product_delete
           (mkRequest "GET" AnonymousUser (mkQuery (Some 9) None None None) ∅)
           Sample.store (products Sample.store) 9 AnonymousUser ∅ 0);
    reflexivity.
Defined.

Lemma product_filter_empty_range_witness :
  call sample_products act_list AnonymousUser
    (mkQuery None (Some (Sample.decimal 20 1)) (Some (Sample.decimal 10 1)) None)
    ∅ 0 Sample.store
  = (mkResponse HTTP_200_OK (Collection ∅), Sample.store).
Proof.
  apply (product_filter_empty_range Sample.ProductSerializer
           Sample.Product_delete Sample.store
           AnonymousUser (Sample.decimal 20 1) (Sample.decimal 10 1) ∅ 0).
  reflexivity.
Defined.

Lemma review_create_then_retrieve_witness :
  let s' :=
    (call sample_reviews act_create Sample.bob no_query Sample.review_payload
       0 Sample.store).2 in
  call sample_reviews act_retrieve Sample.alice no_query ∅
    (next_pk (reviews Sample.store)) s'
  = (mkResponse HTTP_200_OK
       (Instance (next_pk (reviews Sample.store)) (mkReview 1 3 4 "fine")),
     s').
Proof.
  apply (review_create_then_retrieve Sample.review_validation
           Sample.DEFAULT_AUTHENTICATION_CLASSES Sample.store
           3 2 false false no_query no_query Sample.review_payload
           Sample.review_payload ∅ 0 1 4 "fine"); reflexivity.
Defined.

Lemma missing_key_not_found_witness :
  reviews Sample.store !! 99 = None
  ∧ call sample_reviews act_retrieve Sample.alice no_query ∅ 99 Sample.store
    = (mkResponse HTTP_404_NOT_FOUND NoData, Sample.store).
Proof.
  split; [reflexivity|].
  destruct (missing_key_not_found Sample.UserSerializer
              Sample.ProductSerializer Sample.OrderSerializer
              Sample.CategorySirializers Sample.review_validation
              Sample.User_delete Sample.Product_delete nothing_related
              Sample.DEFAULT_AUTHENTICATION_CLASSES
              Sample.store 2 99 false act_retrieve no_query ∅)
    as (_ & H & _); [discriminate | discriminate |].
  apply H. reflexivity.
Defined.

Lemma order_create_then_retrieve_witness :
  call sample_orders act_create Sample.alice no_query Sample.order_payload
    0 Sample.store
  = (mkResponse HTTP_201_CREATED
       (Instance (next_pk (orders Sample.store)) (mkOrder 2 [(1, 2)])),
     set_objects sample_orders
       (<[ next_pk (orders Sample.store) := mkOrder 2 [(1, 2)] ]>
          (orders Sample.store)) Sample.store).
Proof.
  apply (order_create_then_retrieve Sample.OrderSerializer Sample.store 2
           false no_query no_query Sample.order_payload Sample.order_payload
           ∅ 0 (mkOrder 2 [(1, 2)])); reflexivity.
Defined.

Lemma order_destroy_then_retrieve_witness :
  orders Sample.store !! 7 = Some Sample.alice_order
  ∧ (let s' :=
       (call sample_orders act_destroy Sample.admin no_query ∅ 7
          Sample.store).2 in
     call sample_orders act_retrieve Sample.alice no_query ∅ 7 s'
     = (mkResponse HTTP_404_NOT_FOUND NoData, s')).
Proof.
  split; [reflexivity|].
  apply (order_destroy_then_retrieve Sample.OrderSerializer Sample.store
           1 2 7 false Sample.alice_order no_query no_query ∅ ∅ eq_refl).
Defined.

(** Under a model layer that deletes what refers to a deleted user, the
    delete of [alice]'s own record takes her order and her review with
    it. *)
Example user_delete_cascade_sample :
  let s' :=
    (call sample_users act_destroy Sample.alice no_query ∅ 2 Sample.store).2 in
  users s' !! 2 = None ∧ orders s' !! 7 = None ∧ reviews s' !! 4 = None.
Proof. vm_compute. repeat split. Qed.
